(** * study-fastapi: request bodies, path and query parameters

    A shallow embedding of [main.py]: the [Item] model, the four route
    handlers and the request binding that FastAPI derives from their
    signatures, followed by the properties of the routes.

    Python values are an inductive type, a [dict] is a finite map from
    strings, a [float] is an IEEE 754 binary64 number (Rocq's primitive
    floats).  A character of a [string] stands for one code point below 256.
    The handlers build and update dict objects in place, so they run in a
    state-and-exception monad over the store of dict objects.  A response
    is the dict of the handler after the framework has encoded it as JSON,
    which fails on a float that is not finite. *)

From Stdlib Require Import ZArith Ascii.
From Stdlib Require Import Floats.PrimFloat Floats.SpecFloat Floats.FloatOps.
From stdpp Require Import gmap strings list fin_maps pretty.

Set Warnings "-register-all".

(** ** Python values *)

(** A dict with string keys is [VDict], given by its entries; where the
    order of its keys is asked for, it is the order of [map_to_list].  A
    dict whose keys come in another order is [VDictItems], given by its
    entries in insertion order (a repeated key keeps its first place and
    takes its last value). *)
Inductive value : Type :=
| VNone
| VBool (b : bool)
| VInt (z : Z)
| VFloat (f : float)
| VStr (s : string)
| VList (l : list value)
| VDict (d : gmap string value)
| VDictItems (items : list (string * value)).

Abbreviation pydict := (gmap string value).

(** [bool(v)]: the truth value that an [if v:] tests. *)
Definition truth (v : value) : bool :=
  match v with
  | VNone => false
  | VBool b => b
  | VInt z => negb (z =? 0)%Z
  | VFloat f => negb (PrimFloat.eqb f PrimFloat.zero)
  | VStr s => negb (String.eqb s "")
  | VList l => negb (bool_decide (l = []))
  | VDict d => negb (bool_decide (d = ∅))
  | VDictItems items => negb (bool_decide (items = []))
  end.

(** The entries and the keys of a dict given by its insertions. *)
Definition items_dict (items : list (string * value)) : pydict :=
  list_to_map (reverse items).

Definition items_keys (items : list (string * value)) : list string :=
  foldl (λ keys kv, if bool_decide (kv.1 ∈ keys) then keys else keys ++ [kv.1]) [] items.

(** [json.dumps(v, allow_nan=False)] succeeds: no float in [v] is NaN or
    an infinity. *)
Fixpoint json_compliant (v : value) : bool :=
  match v with
  | VFloat f => PrimFloat.is_finite f
  | VList l => forallb json_compliant l
  | VDict d => map_fold (λ _ v' ok, json_compliant v' && ok) true d
  | VDictItems items => forallb (λ kv, json_compliant kv.2) items
  | _ => true
  end.

(** An [Optional[X]] attribute as a value: [None] or the value itself. *)
Definition optional_value {A} (inj : A → value) (o : option A) : value :=
  from_option inj VNone o.

(** ** The store of dict objects and the monad of handler bodies *)

Abbreviation store := (list (gmap string value)).

Inductive exn : Type :=
| TypeError
| ValueError
| OverflowError.

Inductive outcome (A : Type) : Type :=
| Return (a : A)
| Raise (e : exn).
Arguments Return {A} a.
Arguments Raise {A} e.

Definition py (A : Type) : Type := store → outcome A * store.

#[export] Instance py_ret : MRet py := λ A a st, (Return a, st).

#[export] Instance py_bind : MBind py := λ A B k m st,
  match m st with
  | (Return a, st') => k a st'
  | (Raise e, st') => (Raise e, st')
  end.

Definition raise {A} (e : exn) : py A := λ st, (Raise e, st).

(** A dict display or a call that returns a new dict: the object is put at
    the end of the store and its position is the reference. *)
Definition new_dict (d : pydict) : py nat :=
  λ st, (Return (length st), st ++ [d]).

(** Reading the entries of the dict behind a reference ([**d]). *)
Definition dict_items (r : nat) : py pydict :=
  λ st, (Return (default ∅ (st !! r)), st).

(** [d.update(other)]: in place; the entries of [other] win. *)
Definition dict_update (r : nat) (other : pydict) : py unit :=
  λ st, (Return tt, alter (λ d, other ∪ d) r st).

(** [x + y] for a float [x] and an [Optional[float]] [y]: neither
    [float.__add__] nor [NoneType] handles [None], so the sum raises. *)
Definition float_add (x : float) (y : option float) : py float :=
  match y with
  | Some t => mret (PrimFloat.add x t)
  | None => raise TypeError
  end.

(** ** The request body model *)

Record Item : Type := {
  name : string;
  description : option string;
  price : float;
  tax : option float
}.

(** [item.dict()]: every declared field, unset optional ones as [None]. *)
Definition Item_dict (item : Item) : pydict :=
  {[ "name" := VStr (name item);
     "description" := optional_value VStr (description item);
     "price" := VFloat (price item);
     "tax" := optional_value VFloat (tax item) ]}.

(** ** The handlers *)

Module Items1.
(** [@app.post("/items1/")] *)
Definition create_item (item : Item) : py nat :=
  item_dict ← new_dict (Item_dict item);
  price_with_tax ← float_add (price item) (tax item);
  _ ← dict_update item_dict {[ "price_with_tax" := VFloat price_with_tax ]};
  mret item_dict.
End Items1.

Module Items2.
(** [@app.put("/items2/{item_id}")] *)
Definition create_item (item_id : Z) (item : Item) : py nat :=
  item_dict ← new_dict (Item_dict item);
  fields ← dict_items item_dict;
  new_dict (fields ∪ {[ "item_id" := VInt item_id ]}).
End Items2.

Module Items3.
(** [@app.put("/items3/{item_id}")] *)
Definition create_item (item_id : Z) (item : Item) (q : option string) : py nat :=
  item_dict ← new_dict (Item_dict item);
  fields ← dict_items item_dict;
  result ← new_dict (fields ∪ {[ "item_id" := VInt item_id ]});
  _ ← (if truth (optional_value VStr q)
       then dict_update result {[ "q" := optional_value VStr q ]}
       else mret tt);
  mret result.
End Items3.

Module Items4.
Definition items : value :=
  VList [VDict {[ "item_id" := VStr "Foo" ]}; VDict {[ "item_id" := VStr "Bar" ]}].

(** [@app.get("/items4")] *)
Definition read_items (q : option string) : py nat :=
  results ← new_dict {[ "items" := items ]};
  _ ← match q with
      | Some s =>
          if truth (VStr s) then dict_update results {[ s := VStr s ]} else mret tt
      | None => mret tt
      end;
  mret results.
End Items4.

(** ** Regular expressions: the fragment the source uses

    [regex="^fixedquery$"] is a Python [re] pattern applied with [re.match].
    The fragment is anchors and literal characters.  Without [re.MULTILINE],
    [^] matches at the start of the string only and [$] matches at the end
    of the string and just before a newline that ends the string. *)

Inductive re_atom : Type :=
| Caret
| Dollar
| Literal (c : Ascii.ascii).

Definition newline : Ascii.ascii := Ascii.ascii_of_nat 10.

Definition re_special : list Ascii.ascii :=
  String.list_ascii_of_string "\.*+?{}[]()|".

Definition re_compile_char (c : Ascii.ascii) : option re_atom :=
  if Ascii.eqb c "^"%char then Some Caret
  else if Ascii.eqb c "$"%char then Some Dollar
  else if bool_decide (c ∈ re_special) then None
  else Some (Literal c).

(** [re.compile(pattern)], [None] outside the fragment. *)
Definition re_compile (pattern : string) : option (list re_atom) :=
  mapM re_compile_char (String.list_ascii_of_string pattern).

Fixpoint re_match_here (p : list re_atom) (at_start : bool) (s : list Ascii.ascii) : bool :=
  match p with
  | [] => true
  | Caret :: p' => at_start && re_match_here p' at_start s
  | Dollar :: p' =>
      match s with
      | [] => true
      | [c] => Ascii.eqb c newline
      | _ => false
      end && re_match_here p' at_start s
  | Literal c :: p' =>
      match s with
      | [] => false
      | c' :: s' => Ascii.eqb c c' && re_match_here p' false s'
      end
  end.

(** [re.match(pattern, s) is not None] *)
Definition re_match (pattern s : string) : bool :=
  match re_compile pattern with
  | Some p => re_match_here p true (String.list_ascii_of_string s)
  | None => false
  end.

(** ** Request validation

    The validation layer reports every failure with the location of the
    offending parameter or field. *)

Inductive error_kind : Type :=
| Missing
| NoneNotAllowed
| WrongType
| NotADict
| KeywordsNotStrings
| MinLength
| MaxLength
| RegexMismatch.

Record ValidationError : Type := {
  loc : list string;
  kind : error_kind
}.

(** The scalar validators of the validation library, for the two scalar
    types the source declares: [str] and [float].  A validator returns the
    validated value or reports that the value is not of the type.  The
    validator of [float] can also raise an error that the library does not
    catch, the [OverflowError] of converting an integer beyond the range of
    a float: [float_overflow] tells for which values, and the validator then
    returns nothing. *)
Class Validators : Type := {
  str_validator : value → option string;
  float_validator : value → option float;
  float_overflow : value → bool
}.

(** [float(z)] for an integer: the nearest float, a tie going to the even
    one; [None] when the integer is beyond the range of a float, where the
    call raises [OverflowError]. *)
Definition float_of_int (z : Z) : option float :=
  let f := SF2Prim (binary_normalize prec emax z 0 false) in
  if PrimFloat.is_infinity f then None else Some f.

(** The validators of plain [str] and [float], the types that the fields of
    [Item] declare.  The validator of [str] takes a string as it is and a
    boolean, an integer or a float through [str(v)]; the validator of
    [float] takes a float as it is and every other value through
    [float(v)], which converts a boolean, an integer within the range of a
    float and a string that spells a number, and raises [OverflowError] on
    an integer beyond that range.  The two conversions between floats and
    strings, [repr] of a float and [float] of a string, are left open. *)
Section pydantic_validators.
Variable float_repr : float → string.
Variable float_of_str : string → option float.

Definition pydantic_validators : Validators := {|
  str_validator v :=
    match v with
    | VStr s => Some s
    | VBool b => Some (if b then "True" else "False")
    | VInt z => Some (pretty z)
    | VFloat f => Some (float_repr f)
    | _ => None
    end;
  float_validator v :=
    match v with
    | VFloat f => Some f
    | VBool b => Some (if b then PrimFloat.one else PrimFloat.zero)
    | VInt z => float_of_int z
    | VStr s => float_of_str s
    | _ => None
    end;
  float_overflow v :=
    match v with
    | VInt z => bool_decide (float_of_int z = None)
    | _ => false
    end
|}.
End pydantic_validators.

(** The strict validators accept a value of the declared type only (the
    library's [StrictStr] and [StrictFloat]): they are the validators above
    without any conversion, and the two agree on every body whose fields hold
    strings for [str] and floats for [float].  The statements below hold for
    every instance, or say which property of the validators they use. *)
Definition strict_validators : Validators := {|
  str_validator v := match v with VStr s => Some s | _ => None end;
  float_validator v := match v with VFloat f => Some f | _ => None end;
  float_overflow v := false
|}.

(** A field declared without default, as [name: str]. *)
Definition required_field {A} (validator : value → option A) (field : string)
    (body : pydict) : list ValidationError + A :=
  match body !! field with
  | None => inl [{| loc := ["body"; field]; kind := Missing |}]
  | Some VNone => inl [{| loc := ["body"; field]; kind := NoneNotAllowed |}]
  | Some v =>
      match validator v with
      | Some a => inr a
      | None => inl [{| loc := ["body"; field]; kind := WrongType |}]
      end
  end.

(** A field declared as [description: Optional[str] = None]. *)
Definition optional_field {A} (validator : value → option A) (field : string)
    (body : pydict) : list ValidationError + option A :=
  match body !! field with
  | None | Some VNone => inr None
  | Some v =>
      match validator v with
      | Some a => inr (Some a)
      | None => inl [{| loc := ["body"; field]; kind := WrongType |}]
      end
  end.

Definition errors {A} (r : list ValidationError + A) : list ValidationError :=
  match r with
  | inl errs => errs
  | inr _ => []
  end.

(** [Item] called with the entries of a mapping as keyword arguments: the
    entries bound to the declared fields, with the errors of all fields that
    do not bind. *)
Definition Item_init `{V : Validators} (d : pydict) : list ValidationError + Item :=
  let name := required_field str_validator "name" d in
  let description := optional_field str_validator "description" d in
  let price := required_field float_validator "price" d in
  let tax := optional_field float_validator "tax" d in
  match name, description, price, tax with
  | inr n, inr de, inr p, inr t =>
      inr {| name := n; description := de; price := p; tax := t |}
  | _, _, _, _ => inl (errors name ++ errors description ++ errors price ++ errors tax)
  end.

(** An element of the sequence given to [dict(...)] read as a key and a
    value: an iterable of exactly two items.  A list gives its two elements,
    a string its two characters, a dict its two keys. *)
Definition iterate_pair (v : value) : option (value * value) :=
  match v with
  | VList [a; b] => Some (a, b)
  | VStr (String c1 (String c2 EmptyString)) =>
      Some (VStr (String c1 EmptyString), VStr (String c2 EmptyString))
  | VDict d =>
      match map_to_list d with
      | [(k1, _); (k2, _)] => Some (VStr k1, VStr k2)
      | _ => None
      end
  | VDictItems items =>
      match items_keys items with
      | [k1; k2] => Some (VStr k1, VStr k2)
      | _ => None
      end
  | _ => None
  end.

(** A key of a dict has to be hashable: lists and dicts are not. *)
Definition hashable (v : value) : bool :=
  match v with
  | VList _ | VDict _ | VDictItems _ => false
  | _ => true
  end.

(** [dict(l)] for a list [l]: the keys and values in order, [None] when the
    call raises. *)
Definition dict_of_pairs (l : list value) : option (list (value * value)) :=
  kvs ← mapM iterate_pair l;
  if forallb (λ kv, hashable kv.1) kvs then Some kvs else None.

(** The keyword arguments of the call of [Item] have to be strings. *)
Definition keywords (kvs : list (value * value)) : option (list (string * value)) :=
  mapM (λ kv, match kv.1 with VStr k => Some (k, kv.2) | _ => None end) kvs.

Definition body_error (k : error_kind) : list ValidationError :=
  [{| loc := ["body"]; kind := k |}].

(** The mapping that the body of a request is read as.  The framework
    reports a body that is [None] as missing; the model's [validate] takes a
    dict as it is and any other value through [dict(value)], which works
    for a sequence of pairs (the empty list and the empty string among
    them) and raises for every other value. *)
Definition body_mapping (body : value) : list ValidationError + pydict :=
  match body with
  | VNone => inl (body_error Missing)
  | VDict d => inr d
  | VDictItems items => inr (items_dict items)
  | VList l =>
      match dict_of_pairs l with
      | Some kvs =>
          match keywords kvs with
          | Some entries => inr (list_to_map (reverse entries))
          | None => inl (body_error KeywordsNotStrings)
          end
      | None => inl (body_error NotADict)
      end
  | VStr s => if bool_decide (s = EmptyString) then inr ∅ else inl (body_error NotADict)
  | VBool _ | VInt _ | VFloat _ => inl (body_error NotADict)
  end.

(** Binding a request body to [item: Item]: the Item, or the validation
    errors. *)
Definition validate_Item `{V : Validators} (body : value) : list ValidationError + Item :=
  match body_mapping body with
  | inr d => Item_init d
  | inl errs => inl errs
  end.

(** The validator of a float field is run on the value of the field, when
    there is one other than [None], and raises on it. *)
Definition field_raises `{V : Validators} (d : pydict) (field : string) : bool :=
  match d !! field with
  | None | Some VNone => false
  | Some v => float_overflow v
  end.

(** The binding of the body does not return: a validator raises. *)
Definition validation_raises `{V : Validators} (body : value) : bool :=
  match body_mapping body with
  | inr d => field_raises d "price" || field_raises d "tax"
  | inl _ => false
  end.

(** A query parameter declaration: [Query(default, max_length=, min_length=,
    regex=)]; the default [...] makes the parameter required. *)
Inductive query_default : Type :=
| Ellipsis
| Default (v : option string).

Record Query : Type := {
  default_value : query_default;
  max_length : option nat;
  min_length : option nat;
  regex : option string
}.

(** Does the declared constraint, if any, reject the string? *)
Definition violates {A} (constraint : option A) (rejects : A → bool) : bool :=
  from_option rejects false constraint.

(** Binding a query parameter: absent, or one string. *)
Definition validate_query (param : string) (info : Query) (raw : option string)
    : list ValidationError + option string :=
  match raw with
  | None =>
      match default_value info with
      | Ellipsis => inl [{| loc := ["query"; param]; kind := Missing |}]
      | Default v => inr v
      end
  | Some s =>
      if violates (min_length info) (λ n, String.length s <? n) then
        inl [{| loc := ["query"; param]; kind := MinLength |}]
      else if violates (max_length info) (λ n, n <? String.length s) then
        inl [{| loc := ["query"; param]; kind := MaxLength |}]
      else if violates (regex info) (λ pattern, negb (re_match pattern s)) then
        inl [{| loc := ["query"; param]; kind := RegexMismatch |}]
      else inr (Some s)
  end.

(** ** The application: routes, binding and responses *)

(** [q: Optional[str] = None] of [/items3/{item_id}]. *)
Definition items3_q : Query :=
  {| default_value := Default None; max_length := None; min_length := None;
     regex := None |}.

(** [q: Optional[str] = Query(..., max_length=50, min_length=3,
    regex="^fixedquery$")] of [/items4]. *)
Definition items4_q : Query :=
  {| default_value := Ellipsis; max_length := Some 50; min_length := Some 3;
     regex := Some "^fixedquery$" |}.

(** A routed request.  The path converter has already produced the integer
    [item_id]; a query parameter is absent or a string. *)
Inductive request : Type :=
| POST_items1 (body : value)
| PUT_items2 (item_id : Z) (body : value)
| PUT_items3 (item_id : Z) (body : value) (q : option string)
| GET_items4 (q : option string).

Inductive response : Type :=
| OK (content : pydict)
| UnprocessableEntity (detail : list ValidationError)
| InternalServerError (e : exn).

(** Running a handler: the returned dict, encoded as JSON, is the content
    of the response; the encoder raises [ValueError] on a float that is not
    finite, and an exception that leaves the handler or the encoder is a
    server error. *)
Definition respond (handler : py nat) (st : store) : response * store :=
  match handler st with
  | (Return r, st') =>
      let content := default ∅ (st' !! r) in
      if json_compliant (VDict content) then (OK content, st')
      else (InternalServerError ValueError, st')
  | (Raise e, st') => (InternalServerError e, st')
  end.

(** A request whose body does not bind: a validation error with the
    errors of the binding, or a server error when a validator raised. *)
Definition reject `{V : Validators} (body : value) (errs : list ValidationError)
    (st : store) : response * store :=
  if validation_raises body then (InternalServerError OverflowError, st)
  else (UnprocessableEntity errs, st).

Definition serve `{V : Validators} (req : request) (st : store) : response * store :=
  match req with
  | POST_items1 body =>
      match validate_Item body with
      | inr item => respond (Items1.create_item item) st
      | inl errs => reject body errs st
      end
  | PUT_items2 item_id body =>
      match validate_Item body with
      | inr item => respond (Items2.create_item item_id item) st
      | inl errs => reject body errs st
      end
  | PUT_items3 item_id body q =>
      match validate_query "q" items3_q q, validate_Item body with
      | inr q', inr item => respond (Items3.create_item item_id item q') st
      | vq, inl errs => reject body (errors vq ++ errs) st
      | inl qerrs, inr _ => (UnprocessableEntity qerrs, st)
      end
  | GET_items4 q =>
      match validate_query "q" items4_q q with
      | inr q' => respond (Items4.read_items q') st
      | inl errs => (UnprocessableEntity errs, st)
      end
  end.

(** The server handles the requests of a history one after the other on the
    same store. *)
Fixpoint serve_all `{V : Validators} (reqs : list request) (st : store)
    : list response * store :=
  match reqs with
  | [] => ([], st)
  | req :: reqs' =>
      let '(resp, st') := serve req st in
      let '(resps, st'') := serve_all reqs' st' in
      (resp :: resps, st'')
  end.

(** ** Vocabulary of the statements *)

(** A field is given when the body has it with a value other than [null]. *)
Definition given (d : pydict) (field : string) : bool :=
  match d !! field with
  | None | Some VNone => false
  | Some _ => true
  end.

(** The body gives [field], and the validator turns its value into [a]. *)
Definition given_as {A} (validator : value → option A) (d : pydict)
    (field : string) (a : A) : Prop :=
  ∃ v, d !! field = Some v ∧ v ≠ VNone ∧ validator v = Some a.

(** An optional field is left out (or [null]), or given and well-typed. *)
Definition optional_as {A} (validator : value → option A) (d : pydict)
    (field : string) (o : option A) : Prop :=
  match o with
  | None => given d field = false
  | Some a => given_as validator d field a
  end.

Definition fixedquery_nl : string := "fixedquery" +:+ String newline EmptyString.

(** The fields that [Item] declares. *)
Definition Item_fields : list string := ["name"; "description"; "price"; "tax"].

(** Two bodies with the same entries for the declared fields. *)
Definition same_fields (d1 d2 : pydict) : Prop :=
  ∀ field, field ∈ Item_fields → d1 !! field = d2 !! field.

(** Validators that leave a value of the declared type as it is. *)
Definition type_preserving (V : Validators) : Prop :=
  (∀ s, str_validator (VStr s) = Some s) ∧ (∀ f, float_validator (VFloat f) = Some f).

(** Booleans, numbers and strings; [None], lists and dicts are the rest. *)
Definition is_scalar (v : value) : bool :=
  match v with
  | VBool _ | VInt _ | VFloat _ | VStr _ => true
  | _ => false
  end.

(** What the statements about text and numbers use of the validators: a
    string is text and a float is a number as they are, [None], a list and
    a dict are neither, and the float validator raises on integers only and
    returns nothing when it does. *)
Definition lawful (V : Validators) : Prop :=
  type_preserving V ∧
  (∀ v, is_scalar v = false → str_validator v = None ∧ float_validator v = None) ∧
  (∀ v, float_overflow v = true → (∃ z, v = VInt z) ∧ float_validator v = None).

(** Both attributes of the Item that are floats are finite. *)
Definition finite_fields (item : Item) : bool :=
  PrimFloat.is_finite (price item) && from_option PrimFloat.is_finite true (tax item).

(** Unfolding one step of a handler body. *)
Ltac py_step :=
  unfold mbind, py_bind, mret, py_ret, new_dict, dict_items, dict_update, raise;
  cbn [fst snd].

(** ** The store: objects are only ever added at the end *)

Section store_facts.
Implicit Types (st : store) (d : pydict).

Lemma lookup_new st d : (st ++ [d]) !! length st = Some d.
Proof. by apply list_lookup_middle. Qed.

Lemma alter_new (f : pydict → pydict) st d :
  alter f (length st) (st ++ [d]) = st ++ [f d].
Proof.
  replace (length st) with (length st + 0) by lia.
  by rewrite alter_app_r.
Qed.

Lemma new_dict_run d st : new_dict d st = (Return (length st), st ++ [d]).
Proof. reflexivity. Qed.
End store_facts.

(** ** What each handler leaves in the store *)

Lemma Items1_create_item_ok item t st :
  tax item = Some t →
  Items1.create_item item st =
    (Return (length st),
     st ++ [ {[ "price_with_tax" := VFloat (PrimFloat.add (price item) t) ]}
             ∪ Item_dict item ]).
Proof.
  intros Htax. unfold Items1.create_item, float_add. rewrite Htax.
  py_step. by rewrite alter_new.
Qed.

Lemma Items1_create_item_raise item st :
  tax item = None →
  Items1.create_item item st = (Raise TypeError, st ++ [Item_dict item]).
Proof.
  intros Htax. unfold Items1.create_item, float_add. rewrite Htax. by py_step.
Qed.

Lemma Items2_create_item_ok item_id item st :
  Items2.create_item item_id item st =
    (Return (S (length st)),
     (st ++ [Item_dict item]) ++ [Item_dict item ∪ {[ "item_id" := VInt item_id ]}]).
Proof.
  unfold Items2.create_item. py_step.
  rewrite lookup_new, length_app. cbn. do 2 f_equal. lia.
Qed.

Lemma Items3_create_item_ok item_id item q st :
  Items3.create_item item_id item q st =
    (Return (S (length st)),
     (st ++ [Item_dict item]) ++
       [ (if truth (optional_value VStr q)
          then {[ "q" := optional_value VStr q ]} else ∅)
         ∪ (Item_dict item ∪ {[ "item_id" := VInt item_id ]}) ]).
Proof.
  unfold Items3.create_item. py_step.
  rewrite lookup_new. cbn [default].
  replace (S (length st)) with (length (st ++ [Item_dict item]))
    by (rewrite length_app; cbn; lia).
  destruct (truth (optional_value VStr q)); py_step.
  - by rewrite alter_new.
  - unfold id. by rewrite (left_id_L (∅ : pydict) (∪)).
Qed.

Lemma Items4_read_items_ok q st :
  Items4.read_items q st =
    (Return (length st),
     st ++ [ match q with
             | Some s => if truth (VStr s) then {[ s := VStr s ]} else ∅
             | None => ∅
             end ∪ {[ "items" := Items4.items ]} ]).
Proof.
  unfold Items4.read_items. py_step.
  destruct q as [s|]; [destruct (truth (VStr s))|]; py_step;
    by rewrite ?alter_new, ?(left_id_L (∅ : pydict) (∪)).
Qed.

(** ** The encoder *)

Lemma json_compliant_dict (d : pydict) :
  json_compliant (VDict d) = true ↔ ∀ k v, d !! k = Some v → json_compliant v = true.
Proof.
  change (json_compliant (VDict d))
    with (map_fold (λ (_ : string) v' ok, json_compliant v' && ok) true d).
  induction d as [|k v d Hk Hfold IH] using map_first_key_ind.
  - rewrite map_fold_empty. split; [intros _ k v; by rewrite lookup_empty | done].
  - rewrite map_fold_insert_first_key by done.
    rewrite andb_true_iff, IH. split.
    + intros [Hv Hd] k' v'. rewrite lookup_insert. case_decide; [by intros [= <-] | apply Hd].
    + intros Hall. split.
      * apply (Hall k). by rewrite lookup_insert_eq.
      * intros k' v' Hk'. apply (Hall k'). rewrite lookup_insert_ne; [done|].
        intros <-. congruence.
Qed.

Lemma bool_eq_iff (b1 b2 : bool) : (b1 = true ↔ b2 = true) → b1 = b2.
Proof. destruct b1, b2; intros [H1 H2]; try done; [by rewrite H1 | by rewrite H2]. Qed.
(** ** Field binding *)

Section field_facts.
Context {A : Type} (validator : value → option A).
Implicit Types (d : pydict) (field : string).

Lemma given_as_given d field a : given_as validator d field a → given d field = true.
Proof.
  intros (v & Hv & Hnone & _). unfold given. rewrite Hv. by destruct v.
Qed.

Lemma required_field_inr d field a :
  required_field validator field d = inr a ↔ given_as validator d field a.
Proof.
  unfold required_field, given_as. split.
  - destruct (d !! field) as [v|] eqn:Hv; [|done].
    destruct v; try done;
      (destruct (validator _) eqn:Hval; [|done]);
      intros [= ->]; eexists; by repeat split.
  - intros (v & -> & Hnone & Hval). rewrite Hval. by destruct v.
Qed.

Lemma optional_field_inr d field o :
  optional_field validator field d = inr o ↔ optional_as validator d field o.
Proof.
  unfold optional_field, optional_as, given_as, given. split.
  - destruct (d !! field) as [v|] eqn:Hv; [|by intros [= <-]].
    destruct v; try (by intros [= <-]);
      (destruct (validator _) eqn:Hval; [|done]);
      intros [= <-]; eexists; by repeat split.
  - destruct o as [a|].
    + intros (v & -> & Hnone & Hval). rewrite Hval. by destruct v.
    + destruct (d !! field) as [v|]; [|done]. by destruct v.
Qed.



End field_facts.

Section item_facts.
Context `{V : Validators}.

(** The body binds to [item] exactly when each field binds to the
    attribute of [item]. *)
Lemma Item_init_inr d item :
  Item_init d = inr item ↔
    given_as str_validator d "name" (name item) ∧
    optional_as str_validator d "description" (description item) ∧
    given_as float_validator d "price" (price item) ∧
    optional_as float_validator d "tax" (tax item).
Proof.
  rewrite <- !required_field_inr, <- !optional_field_inr.
  unfold Item_init. split.
  - destruct (required_field str_validator _ _),
      (optional_field str_validator _ _),
      (required_field float_validator _ _),
      (optional_field float_validator _ _); try done.
    by intros [= <-].
  - intros (-> & -> & -> & ->). by destruct item.
Qed.

Lemma validate_Item_inr d item :
  validate_Item (VDict d) = inr item ↔
    given_as str_validator d "name" (name item) ∧
    optional_as str_validator d "description" (description item) ∧
    given_as float_validator d "price" (price item) ∧
    optional_as float_validator d "tax" (tax item).
Proof. apply Item_init_inr. Qed.





Lemma validate_Item_tax_given d item :
  validate_Item (VDict d) = inr item →
  given d "tax" = true → ∃ t, tax item = Some t ∧ given_as float_validator d "tax" t.
Proof.
  intros (_ & _ & _ & Htax)%validate_Item_inr Hgiven.
  destruct (tax item) as [t|]; cbn in Htax; [eauto | congruence].
Qed.

Lemma validate_Item_tax_omitted d item :
  validate_Item (VDict d) = inr item → given d "tax" = false → tax item = None.
Proof.
  intros (_ & _ & _ & Htax)%validate_Item_inr Hgiven.
  destruct (tax item) as [t|]; [|done].
  apply given_as_given in Htax. congruence.
Qed.
End item_facts.

Lemma reject_fst `{V : Validators} body errs st :
  (reject body errs st).1 =
    if validation_raises body then InternalServerError OverflowError
    else UnprocessableEntity errs.
Proof. unfold reject. by destruct (validation_raises body). Qed.

Lemma reject_snd `{V : Validators} body errs st : (reject body errs st).2 = st.
Proof. unfold reject. by destruct (validation_raises body). Qed.

Lemma reject_not_OK `{V : Validators} body errs st content :
  (reject body errs st).1 ≠ OK content.
Proof. rewrite reject_fst. by destruct (validation_raises body). Qed.

(** ** The responses of the routes *)

Lemma respond_new (handler : py nat) st d :
  handler st = (Return (length st), st ++ [d]) →
  respond handler st =
    (if json_compliant (VDict d) then OK d else InternalServerError ValueError, st ++ [d]).
Proof.
  intros Hrun. unfold respond. rewrite Hrun, lookup_new. cbn [default from_option id].
  by destruct (json_compliant (VDict d)).
Qed.

Lemma respond_ok (handler : py nat) st d :
  handler st = (Return (length st), st ++ [d]) →
  json_compliant (VDict d) = true →
  respond handler st = (OK d, st ++ [d]).
Proof. intros Hrun Hd. by rewrite (respond_new _ _ _ Hrun), Hd. Qed.

Lemma lookup_Item_dict item k :
  Item_dict item !! k =
    if decide (k = "name") then Some (VStr (name item))
    else if decide (k = "description") then Some (optional_value VStr (description item))
    else if decide (k = "price") then Some (VFloat (price item))
    else if decide (k = "tax") then Some (optional_value VFloat (tax item))
    else None.
Proof.
  unfold Item_dict. repeat case_decide; by simplify_map_eq.
Qed.


Section compliance_facts.
Implicit Types (d : pydict) (v : value).

Lemma compliant_empty : json_compliant (VDict ∅) = true.
Proof. apply json_compliant_dict. intros k v. by rewrite lookup_empty. Qed.

Lemma compliant_singleton (k : string) v :
  json_compliant (VDict {[ k := v ]}) = json_compliant v.
Proof.
  apply bool_eq_iff. rewrite json_compliant_dict. split.
  - intros Hall. apply (Hall k). apply lookup_singleton_eq.
  - intros Hv k' v'. rewrite lookup_singleton. case_decide; [by intros [= <-] | done].
Qed.

Lemma compliant_union d1 d2 :
  d1 ##ₘ d2 →
  json_compliant (VDict (d1 ∪ d2)) = json_compliant (VDict d1) && json_compliant (VDict d2).
Proof.
  intros Hdisj. apply bool_eq_iff.
  rewrite andb_true_iff, !json_compliant_dict. split.
  - intros Hall. split; intros k v Hk; apply (Hall k).
    + by apply lookup_union_Some_l.
    + by apply lookup_union_Some_r.
  - intros [H1 H2] k v [Hk|Hk]%lookup_union_Some; [by eapply H1 | by eapply H2 | done].
Qed.

Lemma compliant_insert (k : string) v d :
  d !! k = None →
  json_compliant (VDict (<[ k := v ]> d)) = json_compliant v && json_compliant (VDict d).
Proof.
  intros Hk. rewrite insert_union_singleton_l, compliant_union, compliant_singleton; [done|].
  by apply map_disjoint_singleton_l.
Qed.

Lemma compliant_optional_str (o : option string) : json_compliant (optional_value VStr o) = true.
Proof. by destruct o. Qed.

Lemma compliant_Item_dict item : json_compliant (VDict (Item_dict item)) = finite_fields item.
Proof.
  unfold Item_dict, finite_fields.
  rewrite !compliant_insert, compliant_singleton by done.
  rewrite compliant_optional_str. cbn. by destruct (tax item).
Qed.

Lemma compliant_items1 item t :
  tax item = Some t →
  json_compliant
    (VDict ({[ "price_with_tax" := VFloat (PrimFloat.add (price item) t) ]} ∪ Item_dict item))
  = PrimFloat.is_finite (PrimFloat.add (price item) t) && finite_fields item.
Proof.
  intros Htax. rewrite compliant_union, compliant_singleton, compliant_Item_dict; [done|].
  apply map_disjoint_singleton_l. by rewrite lookup_Item_dict.
Qed.

Lemma compliant_items2 item item_id :
  json_compliant (VDict (Item_dict item ∪ {[ "item_id" := VInt item_id ]})) = finite_fields item.
Proof.
  rewrite compliant_union, compliant_singleton, compliant_Item_dict.
  - apply andb_true_r.
  - apply map_disjoint_singleton_r. by rewrite lookup_Item_dict.
Qed.

Lemma compliant_items3 item item_id (q : option string) :
  json_compliant
    (VDict ((if truth (optional_value VStr q)
             then {[ "q" := optional_value VStr q ]} else ∅)
            ∪ (Item_dict item ∪ {[ "item_id" := VInt item_id ]})))
  = finite_fields item.
Proof.
  destruct (truth (optional_value VStr q)).
  - rewrite compliant_union, compliant_singleton, compliant_optional_str, compliant_items2;
      [done|].
    apply map_disjoint_singleton_l.
    rewrite lookup_union, lookup_Item_dict, lookup_singleton. by repeat case_decide.
  - by rewrite (left_id_L (∅ : pydict) (∪)), compliant_items2.
Qed.

Lemma compliant_items4 (q : option string) :
  json_compliant
    (VDict (match q with
            | Some s => if truth (VStr s) then {[ s := VStr s ]} else ∅
            | None => ∅
            end ∪ {[ "items" := Items4.items ]})) = true.
Proof.
  apply json_compliant_dict. intros k v [Hk|[_ Hk]]%lookup_union_Some_raw.
  - destruct q as [s|]; [destruct (truth (VStr s))|]; try by rewrite lookup_empty in Hk.
    apply lookup_singleton_Some in Hk as [_ <-]. done.
  - apply lookup_singleton_Some in Hk as [_ <-]. by vm_compute.
Qed.
Lemma compliant_items4_Some (s : string) :
  json_compliant (VDict ({[ s := VStr s ]} ∪ {[ "items" := Items4.items ]})) = true.
Proof.
  apply json_compliant_dict. intros k v [Hk|[_ Hk]]%lookup_union_Some_raw.
  - apply lookup_singleton_Some in Hk as [_ <-]. done.
  - apply lookup_singleton_Some in Hk as [_ <-]. by vm_compute.
Qed.
End compliance_facts.

Section items1_facts.
Context `{V : Validators}.

Lemma serve_items1_new body item t st :
  validate_Item body = inr item →
  tax item = Some t →
  serve (POST_items1 body) st =
    (if PrimFloat.is_finite (PrimFloat.add (price item) t) && finite_fields item
     then OK ({[ "price_with_tax" := VFloat (PrimFloat.add (price item) t) ]}
              ∪ Item_dict item)
     else InternalServerError ValueError,
     st ++ [ {[ "price_with_tax" := VFloat (PrimFloat.add (price item) t) ]}
             ∪ Item_dict item ]).
Proof.
  intros Hvalid Htax. cbn [serve]. rewrite Hvalid.
  rewrite (respond_new _ _ _ (Items1_create_item_ok item t st Htax)).
  by rewrite (compliant_items1 _ _ Htax).
Qed.

Lemma serve_items1_ok body item t st :
  validate_Item body = inr item →
  tax item = Some t →
  PrimFloat.is_finite (PrimFloat.add (price item) t) && finite_fields item = true →
  serve (POST_items1 body) st =
    (OK ({[ "price_with_tax" := VFloat (PrimFloat.add (price item) t) ]}
         ∪ Item_dict item),
     st ++ [ {[ "price_with_tax" := VFloat (PrimFloat.add (price item) t) ]}
             ∪ Item_dict item ]).
Proof.
  intros Hvalid Htax Hfinite. by rewrite (serve_items1_new _ _ _ _ Hvalid Htax), Hfinite.
Qed.

Lemma serve_items1_raise body item st :
  validate_Item body = inr item →
  tax item = None →
  serve (POST_items1 body) st = (InternalServerError TypeError, st ++ [Item_dict item]).
Proof.
  intros Hvalid Htax. cbn [serve]. rewrite Hvalid. unfold respond.
  by rewrite Items1_create_item_raise.
Qed.

End items1_facts.




(** The body [{"name": "Foo", "price": 10.0, "tax": 1.5}] has
    [price_with_tax] 11.5 in its response. *)
Example items1_Foo :
  ∃ content,
    (serve (V := strict_validators)
       (POST_items1 (VDict {[ "name" := VStr "Foo"; "price" := VFloat 10.0%float;
                              "tax" := VFloat 1.5%float ]})) []).1 = OK content ∧
    content !! "price_with_tax" = Some (VFloat 11.5%float).
Proof. eexists. split; vm_compute; reflexivity. Qed.

(** C2. For every valid Item payload in which tax is absent (omitted or
    null), the sum [item.price + item.tax] of POST /items1/ raises, the
    handler lets the exception out, and the request ends in a server
    error. *)
Theorem items1_tax_absent_fails `{V : Validators} (d : pydict) (item : Item) (st : store) :
  validate_Item (VDict d) = inr item →
  given d "tax" = false →
  tax item = None ∧
  (∀ st', (float_add (price item) (tax item) st').1 = Raise TypeError) ∧
  (Items1.create_item item st).1 = Raise TypeError ∧
  (serve (POST_items1 (VDict d)) st).1 = InternalServerError TypeError.
Proof.
  intros Hvalid Hgiven.
  pose proof (validate_Item_tax_omitted _ _ Hvalid Hgiven) as Htax.
  split; [done|]. split; [by rewrite Htax|]. split.
  - by rewrite Items1_create_item_raise.
  - by rewrite (serve_items1_raise _ _ _ Hvalid Htax).
Qed.

Lemma items1_tax_absent_fails_witness :
  (serve (V := strict_validators)
     (POST_items1 (VDict {[ "name" := VStr "Foo"; "price" := VFloat 10.0%float ]})) []).1
  = InternalServerError TypeError.
Proof.
  apply (items1_tax_absent_fails (V := strict_validators)
           {[ "name" := VStr "Foo"; "price" := VFloat 10.0%float ]}
           {| name := "Foo"; description := None; price := 10.0%float; tax := None |} []).
  - vm_compute. reflexivity.
  - vm_compute. reflexivity.
Defined.




Section items23_facts.
Context `{V : Validators}.

Lemma serve_items2_new item_id body item st :
  validate_Item body = inr item →
  serve (PUT_items2 item_id body) st =
    (if finite_fields item
     then OK (Item_dict item ∪ {[ "item_id" := VInt item_id ]})
     else InternalServerError ValueError,
     (st ++ [Item_dict item]) ++ [Item_dict item ∪ {[ "item_id" := VInt item_id ]}]).
Proof.
  intros Hvalid. cbn [serve]. rewrite Hvalid. unfold respond.
  rewrite Items2_create_item_ok.
  replace (S (length st)) with (length (st ++ [Item_dict item]))
    by (rewrite length_app; cbn; lia).
  rewrite lookup_new. cbn [default from_option id]. rewrite compliant_items2.
  by destruct (finite_fields item).
Qed.

Lemma serve_items2_ok item_id body item st :
  validate_Item body = inr item →
  finite_fields item = true →
  serve (PUT_items2 item_id body) st =
    (OK (Item_dict item ∪ {[ "item_id" := VInt item_id ]}),
     (st ++ [Item_dict item]) ++ [Item_dict item ∪ {[ "item_id" := VInt item_id ]}]).
Proof. intros Hvalid Hfinite. by rewrite (serve_items2_new _ _ _ _ Hvalid), Hfinite. Qed.

Lemma serve_items3_new item_id body item q st :
  validate_Item body = inr item →
  serve (PUT_items3 item_id body q) st =
    (if finite_fields item
     then OK ((if truth (optional_value VStr q)
               then {[ "q" := optional_value VStr q ]} else ∅)
              ∪ (Item_dict item ∪ {[ "item_id" := VInt item_id ]}))
     else InternalServerError ValueError,
     (st ++ [Item_dict item]) ++
       [ (if truth (optional_value VStr q)
          then {[ "q" := optional_value VStr q ]} else ∅)
         ∪ (Item_dict item ∪ {[ "item_id" := VInt item_id ]}) ]).
Proof.
  intros Hvalid. cbn [serve]. rewrite Hvalid.
  assert (validate_query "q" items3_q q = inr q) as -> by by destruct q.
  unfold respond. rewrite Items3_create_item_ok.
  replace (S (length st)) with (length (st ++ [Item_dict item]))
    by (rewrite length_app; cbn; lia).
  rewrite lookup_new. cbn [default from_option id]. rewrite compliant_items3.
  by destruct (finite_fields item).
Qed.

Lemma serve_items3_ok item_id body item q st :
  validate_Item body = inr item →
  finite_fields item = true →
  serve (PUT_items3 item_id body q) st =
    (OK ((if truth (optional_value VStr q)
          then {[ "q" := optional_value VStr q ]} else ∅)
         ∪ (Item_dict item ∪ {[ "item_id" := VInt item_id ]})),
     (st ++ [Item_dict item]) ++
       [ (if truth (optional_value VStr q)
          then {[ "q" := optional_value VStr q ]} else ∅)
         ∪ (Item_dict item ∪ {[ "item_id" := VInt item_id ]}) ]).
Proof. intros Hvalid Hfinite. by rewrite (serve_items3_new _ _ _ _ _ Hvalid), Hfinite. Qed.
End items23_facts.

Lemma lookup_with_item_id item item_id k :
  (Item_dict item ∪ {[ "item_id" := VInt item_id ]}) !! k =
    if decide (k = "item_id") then Some (VInt item_id) else Item_dict item !! k.
Proof.
  rewrite lookup_union, lookup_Item_dict, lookup_singleton.
  repeat case_decide; by simplify_eq.
Qed.









(** ** The pattern of /items4 *)

Lemma re_match_here_word (w : list ascii) (b : bool) (s : list ascii) :
  re_match_here ((Literal <$> w) ++ [Dollar]) b s = true ↔ s = w ∨ s = w ++ [newline].
Proof.
  revert b s. induction w as [|c w IH]; intros b s; cbn.
  - rewrite andb_true_r. destruct s as [|c [|c' s]]; cbn.
    + split; [by left | done].
    + rewrite Ascii.eqb_eq. split; [intros ->; by right | by intros [|[= ->]]].
    + split; [done | by intros [|]].
  - destruct s as [|c' s]; [split; [done | by intros [|]]|].
    rewrite andb_true_iff, Ascii.eqb_eq, IH. split.
    + intros [-> [->| ->]]; [by left | by right].
    + intros [[= -> ->]|[= -> ->]]; (split; [done|]); [by left | by right].
Qed.

Lemma list_ascii_of_string_eq (s : string) (l : list ascii) :
  String.list_ascii_of_string s = l ↔ s = String.string_of_list_ascii l.
Proof.
  split.
  - intros <-. by rewrite String.string_of_list_ascii_of_string.
  - intros ->. by rewrite String.list_ascii_of_string_of_list_ascii.
Qed.

Lemma re_match_fixedquery (s : string) :
  re_match "^fixedquery$" s = true ↔ s = "fixedquery" ∨ s = fixedquery_nl.
Proof.
  unfold re_match.
  change (re_compile "^fixedquery$") with
    (Some (Caret :: (Literal <$> String.list_ascii_of_string "fixedquery") ++ [Dollar])).
  cbn [re_match_here andb].
  rewrite re_match_here_word, !list_ascii_of_string_eq. reflexivity.
Qed.

Example re_match_examples :
  re_match "^fixedquery$" "fixedquery" = true ∧
  re_match "^fixedquery$" fixedquery_nl = true ∧
  re_match "^fixedquery$" "notmatching" = false ∧
  re_match "^fixedquery$" "fixedquery2" = false ∧
  re_match "^fixedquery$" "a fixedquery" = false.
Proof. by vm_compute. Qed.

Lemma validate_items4_q_unfold (s : string) :
  validate_query "q" items4_q (Some s) =
    if String.length s <? 3 then inl [{| loc := ["query"; "q"]; kind := MinLength |}]
    else if 50 <? String.length s then inl [{| loc := ["query"; "q"]; kind := MaxLength |}]
    else if negb (re_match "^fixedquery$" s)
         then inl [{| loc := ["query"; "q"]; kind := RegexMismatch |}]
    else inr (Some s).
Proof. reflexivity. Qed.

Lemma validate_items4_q_inr (raw q : option string) :
  validate_query "q" items4_q raw = inr q ↔
    ∃ s, raw = Some s ∧ q = Some s ∧
         3 ≤ String.length s ≤ 50 ∧ re_match "^fixedquery$" s = true.
Proof.
  destruct raw as [s|]; [|split; [done | by intros (? & ? & _)]].
  rewrite validate_items4_q_unfold.
  destruct (String.length s <? 3) eqn:Hmin; [apply Nat.ltb_lt in Hmin | apply Nat.ltb_ge in Hmin].
  { split; [done|]. intros (? & [= <-] & _ & ? & _). lia. }
  destruct (50 <? String.length s) eqn:Hmax; [apply Nat.ltb_lt in Hmax | apply Nat.ltb_ge in Hmax].
  { split; [done|]. intros (? & [= <-] & _ & ? & _). lia. }
  destruct (re_match "^fixedquery$" s) eqn:Hre; cbn.
  - split; [intros [= <-]; exists s; split_and!; [done | done | lia | lia | done]
           | by intros (? & [= <-] & -> & _)].
  - split; [done|]. intros (? & [= <-] & _ & _ & ?). congruence.
Qed.

Lemma validate_items4_q_inl (raw : option string) errs :
  validate_query "q" items4_q raw = inl errs →
  ∃ k, errs = [{| loc := ["query"; "q"]; kind := k |}].
Proof.
  destruct raw as [s|]; [|intros [= <-]; eauto].
  rewrite validate_items4_q_unfold.
  repeat (case_match; [intros [= <-]; eauto|]). done.
Qed.

Lemma serve_items4_ok `{V : Validators} (s : string) st :
  3 ≤ String.length s ≤ 50 →
  re_match "^fixedquery$" s = true →
  serve (GET_items4 (Some s)) st =
    (OK ({[ s := VStr s ]} ∪ {[ "items" := Items4.items ]}),
     st ++ [ {[ s := VStr s ]} ∪ {[ "items" := Items4.items ]} ]).
Proof.
  intros Hlen Hre.
  assert (validate_query "q" items4_q (Some s) = inr (Some s)) as Hq.
  { apply validate_items4_q_inr. by exists s. }
  cbn [serve]. rewrite Hq.
  assert (truth (VStr s) = true) as Htruth.
  { cbn. apply negb_true_iff, String.eqb_neq. intros ->. cbn in Hlen. lia. }
  apply respond_ok; [|apply compliant_items4_Some].
  by rewrite Items4_read_items_ok, Htruth.
Qed.

(** C3. GET /items4 ends in a validation error, every entry of which names
    the query parameter q, exactly when q is missing or breaks a constraint
    (shorter than 3, longer than 50, or no match of [^fixedquery$]);
    ["fixedquery"] succeeds, ["ab"] and ["notmatching"] are validation
    errors. *)
Theorem items4_validation `{V : Validators} (st : store) :
  (∀ raw,
     (∃ detail,
        (serve (GET_items4 raw) st).1 = UnprocessableEntity detail ∧
        detail ≠ [] ∧ ∀ e, e ∈ detail → loc e = ["query"; "q"]) ↔
     (raw = None ∨
      ∃ s, raw = Some s ∧
           (String.length s < 3 ∨ 50 < String.length s ∨
            re_match "^fixedquery$" s = false))) ∧
  (∃ content, (serve (GET_items4 (Some "fixedquery")) st).1 = OK content) ∧
  (serve (GET_items4 (Some "ab")) st).1 =
    UnprocessableEntity [{| loc := ["query"; "q"]; kind := MinLength |}] ∧
  (serve (GET_items4 (Some "notmatching")) st).1 =
    UnprocessableEntity [{| loc := ["query"; "q"]; kind := RegexMismatch |}].
Proof.
  split; [|split; [|split]].
  - intros raw. split.
    + intros (detail & Hresp & _). destruct raw as [s|]; [right | by left].
      exists s. split; [done|].
      destruct (decide (String.length s < 3)) as [|Hmin]; [by left|].
      destruct (decide (50 < String.length s)) as [|Hmax]; [by right; left|].
      right; right. destruct (re_match "^fixedquery$" s) eqn:Hre; [|done].
      rewrite (serve_items4_ok s st) in Hresp; [done | lia | done].
    + intros Hbad.
      destruct (validate_query "q" items4_q raw) as [errs|q] eqn:Hq.
      * exists errs. cbn [serve]. rewrite Hq. cbn. split; [done|].
        apply validate_items4_q_inl in Hq as [k ->]. split; [done|].
        by intros e ->%list_elem_of_singleton.
      * apply validate_items4_q_inr in Hq as (s & -> & -> & Hlen & Hre).
        destruct Hbad as [|(? & [= <-] & [|[|]])]; [done | lia | lia | congruence].
  - eexists. rewrite (serve_items4_ok "fixedquery"); [done | cbn; lia | done].
  - reflexivity.
  - reflexivity.
Qed.

Lemma serve_items4_inv `{V : Validators} raw st content :
  (serve (GET_items4 raw) st).1 = OK content →
  ∃ q, raw = Some q ∧ (q = "fixedquery" ∨ q = fixedquery_nl) ∧
       content = {[ q := VStr q ]} ∪ {[ "items" := Items4.items ]}.
Proof.
  intros Hresp.
  destruct (validate_query "q" items4_q raw) as [errs|q] eqn:Hq.
  { cbn [serve] in Hresp. by rewrite Hq in Hresp. }
  apply validate_items4_q_inr in Hq as (s & -> & -> & Hlen & Hre).
  rewrite (serve_items4_ok s st Hlen Hre) in Hresp. injection Hresp as <-.
  exists s. split; [done|]. split; [|done]. by apply re_match_fixedquery.
Qed.

(** C6. On success, the response of GET /items4 has the fixed list of two
    items under [items] and the value of q under the key that is the value
    of q itself; there is no key ["q"].  The handler does the same for any
    non-empty q other than ["items"]. *)
Theorem items4_response `{V : Validators} (raw : option string) (st : store)
    (content : pydict) :
  (serve (GET_items4 raw) st).1 = OK content →
  (∃ q, raw = Some q ∧
        content !! "items" =
          Some (VList [VDict {[ "item_id" := VStr "Foo" ]};
                       VDict {[ "item_id" := VStr "Bar" ]}]) ∧
        content !! q = Some (VStr q) ∧
        content !! "q" = None ∧
        dom content = ({[ "items"; q ]} : gset string)) ∧
  (∀ q st', q ≠ "" → q ≠ "items" →
     ∃ d, respond (Items4.read_items (Some q)) st' = (OK d, st' ++ [d]) ∧
          d !! "items" = Some Items4.items ∧ d !! q = Some (VStr q)).
Proof.
  intros Hresp. split.
  - apply serve_items4_inv in Hresp as (q & -> & Hq & ->).
    exists q. split; [done|].
    rewrite dom_union_L, !dom_singleton_L.
    destruct Hq as [-> | ->]; split_and!; try done; set_solver.
  - intros q st' Hq Hitems.
    assert (truth (VStr q) = true) as Htruth
      by by apply negb_true_iff, String.eqb_neq.
    eexists. split.
    + apply respond_ok; [|apply compliant_items4_Some].
      by rewrite Items4_read_items_ok, Htruth.
    + split.
      * rewrite lookup_union_r; [apply lookup_singleton_eq|].
        by apply lookup_singleton_None.
      * apply lookup_union_Some_l, lookup_singleton_eq.
Qed.

Lemma items4_response_witness :
  (∃ q, Some "fixedquery" = Some q ∧
        ({[ "fixedquery" := VStr "fixedquery" ]} ∪ {[ "items" := Items4.items ]} : pydict)
          !! "items" =
          Some (VList [VDict {[ "item_id" := VStr "Foo" ]};
                       VDict {[ "item_id" := VStr "Bar" ]}]) ∧
        ({[ "fixedquery" := VStr "fixedquery" ]} ∪ {[ "items" := Items4.items ]} : pydict)
          !! q = Some (VStr q) ∧
        ({[ "fixedquery" := VStr "fixedquery" ]} ∪ {[ "items" := Items4.items ]} : pydict)
          !! "q" = None ∧
        dom ({[ "fixedquery" := VStr "fixedquery" ]} ∪ {[ "items" := Items4.items ]}
             : pydict) = ({[ "items"; q ]} : gset string)) ∧
  (∀ q st', q ≠ "" → q ≠ "items" →
     ∃ d, respond (Items4.read_items (Some q)) st' = (OK d, st' ++ [d]) ∧
          d !! "items" = Some Items4.items ∧ d !! q = Some (VStr q)).
Proof.
  apply (items4_response (V := strict_validators) (Some "fixedquery") []).
  vm_compute. reflexivity.
Defined.

(** C10, as the code has it.  Every successful response of GET /items4 is
    one of two constants: [$] also matches before a newline that ends the
    string, so the pattern admits ["fixedquery"] and ["fixedquery\n"], and
    the response has the items and the admitted q under its own value. *)
Theorem items4_success_responses `{V : Validators} (raw : option string) (st : store)
    (content : pydict) :
  (serve (GET_items4 raw) st).1 = OK content →
  (raw = Some "fixedquery" ∧
   content = {[ "items" := Items4.items; "fixedquery" := VStr "fixedquery" ]}) ∨
  (raw = Some fixedquery_nl ∧
   content = {[ "items" := Items4.items; fixedquery_nl := VStr fixedquery_nl ]}).
Proof.
  intros (q & -> & Hq & ->)%serve_items4_inv.
  destruct Hq as [-> | ->]; [left | right]; (split; [done|]).
  - apply map_eq. intros k. rewrite lookup_union, !lookup_insert, !lookup_singleton.
    by repeat case_decide; simplify_eq.
  - apply map_eq. intros k. rewrite lookup_union, !lookup_insert, !lookup_singleton.
    by repeat case_decide; simplify_eq.
Qed.

Lemma items4_success_responses_witness :
  (Some "fixedquery" = Some "fixedquery" ∧
   ({[ "fixedquery" := VStr "fixedquery" ]} ∪ {[ "items" := Items4.items ]} : pydict) =
     {[ "items" := Items4.items; "fixedquery" := VStr "fixedquery" ]}) ∨
  (Some "fixedquery" = Some fixedquery_nl ∧
   ({[ "fixedquery" := VStr "fixedquery" ]} ∪ {[ "items" := Items4.items ]} : pydict) =
     {[ "items" := Items4.items; fixedquery_nl := VStr fixedquery_nl ]}).
Proof.
  apply (items4_success_responses (V := strict_validators) (Some "fixedquery") []).
  vm_compute. reflexivity.
Defined.

(** C10, as stated, fails: the query ["fixedquery\n"] passes the validation
    and its response is not the constant of the claim. *)
Lemma items4_constant_response_counterexample :
  ∃ content,
    (serve (V := strict_validators) (GET_items4 (Some fixedquery_nl)) []).1 = OK content ∧
    content ≠ {[ "items" := Items4.items; "fixedquery" := VStr "fixedquery" ]}.
Proof.
  eexists. split; [vm_compute; reflexivity|].
  intros Heq. apply (f_equal (λ m : pydict, m !! "fixedquery")) in Heq.
  vm_compute in Heq. discriminate Heq.
Qed.

(** ** Which bodies bind to an Item *)

Section mapping_facts.
Implicit Types (entries : list (string * value)).





End mapping_facts.

Section binding_facts.
Context `{V : Validators}.








Lemma serve_items1_rejected body detail st :
  validate_Item body = inl detail →
  serve (POST_items1 body) st = reject body detail st.
Proof. intros Hvalid. cbn [serve]. by rewrite Hvalid. Qed.

Lemma serve_items2_rejected item_id body detail st :
  validate_Item body = inl detail →
  serve (PUT_items2 item_id body) st = reject body detail st.
Proof. intros Hvalid. cbn [serve]. by rewrite Hvalid. Qed.

Lemma serve_items3_rejected item_id body q detail st :
  validate_Item body = inl detail →
  serve (PUT_items3 item_id body q) st = reject body detail st.
Proof.
  intros Hvalid. cbn [serve]. rewrite Hvalid.
  by assert (validate_query "q" items3_q q = inr q) as -> by by destruct q.
Qed.

End binding_facts.


Lemma pydantic_validators_lawful (float_repr : float → string)
    (float_of_str : string → option float) :
  lawful (pydantic_validators float_repr float_of_str).
Proof.
  split_and!.
  - by split.
  - intros v Hv. by destruct v.
  - intros v Hv. destruct v as [| |z| | | | |]; try done.
    cbn in Hv. apply bool_decide_eq_true_1 in Hv. eauto.
Qed.

(** What the validators of plain [str] and [float] convert: an integer
    price is taken as the float of that integer, a name that is a number as
    its decimal spelling, and an integer price beyond the range of a float
    ends the request in a server error. *)
Example pydantic_validators_convert (float_repr : float → string)
    (float_of_str : string → option float) :
  validate_Item (V := pydantic_validators float_repr float_of_str)
    (VDict {[ "name" := VStr "Foo"; "price" := VInt 10 ]}) =
    inr {| name := "Foo"; description := None; price := 10.0%float; tax := None |} ∧
  validate_Item (V := pydantic_validators float_repr float_of_str)
    (VDict {[ "name" := VInt 123; "price" := VFloat 10.0%float ]}) =
    inr {| name := "123"; description := None; price := 10.0%float; tax := None |} ∧
  (serve (V := pydantic_validators float_repr float_of_str)
     (POST_items1 (VDict {[ "name" := VStr "Foo"; "price" := VInt (10 ^ 400) ]})) []).1 =
    InternalServerError OverflowError.
Proof. split_and!; vm_compute; reflexivity. Qed.




(** ** The store does not reach the responses *)

Section stateless_facts.
Context `{V : Validators}.

(** What a request answers and what it adds to the store, both without
    looking at the store. *)
Lemma serve_adds (req : request) :
  ∃ resp added, ∀ st, serve req st = (resp, st ++ added).
Proof.
  destruct req as [body|item_id body|item_id body q|q].
  - destruct (validate_Item body) as [errs|item] eqn:Hvalid.
    { eexists _, []. intros st.
      rewrite (serve_items1_rejected _ _ _ Hvalid), app_nil_r.
      apply injective_projections; [apply reject_fst | apply reject_snd]. }
    destruct (tax item) as [t|] eqn:Htax.
    + eexists _, [_]. intros st. by apply serve_items1_new.
    + eexists _, [_]. intros st. by apply serve_items1_raise.
  - destruct (validate_Item body) as [errs|item] eqn:Hvalid.
    { eexists _, []. intros st.
      rewrite (serve_items2_rejected _ _ _ _ Hvalid), app_nil_r.
      apply injective_projections; [apply reject_fst | apply reject_snd]. }
    eexists _, [_; _]. intros st.
    rewrite (serve_items2_new _ _ _ _ Hvalid). by rewrite <- app_assoc.
  - destruct (validate_Item body) as [errs|item] eqn:Hvalid.
    { eexists _, []. intros st.
      rewrite (serve_items3_rejected _ _ _ _ _ Hvalid), app_nil_r.
      apply injective_projections; [apply reject_fst | apply reject_snd]. }
    eexists _, [_; _]. intros st.
    rewrite (serve_items3_new _ _ _ _ _ Hvalid). by rewrite <- app_assoc.
  - destruct (validate_query "q" items4_q q) as [errs|q'] eqn:Hq.
    { exists (UnprocessableEntity errs), []. intros st. cbn.
      by rewrite Hq, app_nil_r. }
    eexists _, [_]. intros st. cbn [serve]. rewrite Hq.
    apply respond_ok; [apply Items4_read_items_ok | apply compliant_items4].
Qed.

Lemma serve_response_indep (req : request) (st1 st2 : store) :
  (serve req st1).1 = (serve req st2).1.
Proof.
  destruct (serve_adds req) as (resp & added & Hserve).
  by rewrite !Hserve.
Qed.

Lemma serve_store_prefix (req : request) (st : store) :
  st `prefix_of` (serve req st).2.
Proof.
  destruct (serve_adds req) as (resp & added & Hserve).
  rewrite Hserve. by apply prefix_app_r.
Qed.

Lemma serve_all_responses (reqs : list request) (st : store) :
  (serve_all reqs st).1 = (λ req, (serve req []).1) <$> reqs.
Proof.
  revert st. induction reqs as [|req reqs IH]; intros st; [done|].
  cbn [serve_all fmap list_fmap].
  destruct (serve req st) as [resp st'] eqn:Hserve.
  specialize (IH st'). destruct (serve_all reqs st') as [resps st''].
  cbn in *. rewrite IH. f_equal.
  by rewrite (serve_response_indep req [] st), Hserve.
Qed.
End stateless_facts.

(** C8. Every route is deterministic and stateless: the response of a
    request is the same on every store, so it is the same when the request
    is repeated and after any history of requests; a request only adds
    objects to the store and leaves the objects that are there as they
    are. *)
Theorem handlers_stateless `{V : Validators} (req : request) :
  (∀ st1 st2, (serve req st1).1 = (serve req st2).1) ∧
  (∀ st, (serve req (serve req st).2).1 = (serve req st).1) ∧
  (∀ before st, (serve req (serve_all before st).2).1 = (serve req st).1) ∧
  (∀ st, st `prefix_of` (serve req st).2) ∧
  (∀ st r d, st !! r = Some d → (serve req st).2 !! r = Some d) ∧
  (∀ reqs st, (serve_all reqs st).1 = (λ req', (serve req' []).1) <$> reqs).
Proof.
  split_and!.
  - apply serve_response_indep.
  - intros st. apply serve_response_indep.
  - intros before st. apply serve_response_indep.
  - apply serve_store_prefix.
  - intros st r d Hr. by eapply prefix_lookup_Some, serve_store_prefix.
  - apply serve_all_responses.
Qed.

(** ** Bodies and the dict of an Item *)

Section dict_facts.
Context `{V : Validators}.

Lemma validate_Item_lookups d1 d2 :
  d1 !! "name" = d2 !! "name" →
  d1 !! "description" = d2 !! "description" →
  d1 !! "price" = d2 !! "price" →
  d1 !! "tax" = d2 !! "tax" →
  validate_Item (VDict d1) = validate_Item (VDict d2).
Proof.
  intros Hn Hd Hp Ht. unfold validate_Item. cbn [body_mapping].
  unfold Item_init, required_field, optional_field.
  by rewrite Hn, Hd, Hp, Ht.
Qed.

Lemma same_fields_lookups d1 d2 :
  same_fields d1 d2 →
  d1 !! "name" = d2 !! "name" ∧ d1 !! "description" = d2 !! "description" ∧
  d1 !! "price" = d2 !! "price" ∧ d1 !! "tax" = d2 !! "tax".
Proof.
  intros Hsame. unfold same_fields, Item_fields in Hsame.
  split_and!; apply Hsame; rewrite !elem_of_cons; tauto.
Qed.

Lemma given_as_Item_dict_str item field s :
  type_preserving V →
  Item_dict item !! field = Some (VStr s) →
  given_as str_validator (Item_dict item) field s.
Proof. intros [Hstr _] Hfield. exists (VStr s). by split_and!. Qed.

Lemma given_as_Item_dict_float item field f :
  type_preserving V →
  Item_dict item !! field = Some (VFloat f) →
  given_as float_validator (Item_dict item) field f.
Proof. intros [_ Hfloat] Hfield. exists (VFloat f). by split_and!. Qed.

Lemma validate_Item_dict item :
  type_preserving V → validate_Item (VDict (Item_dict item)) = inr item.
Proof.
  intros Hv. apply validate_Item_inr. split_and!.
  - by apply given_as_Item_dict_str.
  - destruct (description item) as [s|] eqn:Hs; cbn.
    + apply given_as_Item_dict_str; [done|]. by rewrite lookup_Item_dict, Hs.
    + unfold given. by rewrite lookup_Item_dict, Hs.
  - by apply given_as_Item_dict_float.
  - destruct (tax item) as [t|] eqn:Ht; cbn.
    + apply given_as_Item_dict_float; [done|]. by rewrite lookup_Item_dict, Ht.
    + unfold given. by rewrite lookup_Item_dict, Ht.
Qed.

Lemma validate_Item_echo item (content : pydict) :
  type_preserving V →
  same_fields content (Item_dict item) →
  validate_Item (VDict content) = inr item.
Proof.
  intros Hv (Hn & Hd & Hp & Ht)%same_fields_lookups.
  rewrite (validate_Item_lookups _ _ Hn Hd Hp Ht). by apply validate_Item_dict.
Qed.
End dict_facts.

Lemma strict_validators_type_preserving : type_preserving strict_validators.
Proof. by split. Qed.



(** X2. [item.dict()] loses nothing: two Items with the same dict are the
    same Item (an unset optional field, [None], is told from every set
    one). *)
Theorem Item_dict_inj (item1 item2 : Item) :
  Item_dict item1 = Item_dict item2 ↔ item1 = item2.
Proof.
  split; [|by intros ->].
  intros Hdict.
  pose proof (f_equal (λ m : pydict, m !! "name") Hdict) as Hn.
  pose proof (f_equal (λ m : pydict, m !! "description") Hdict) as Hd.
  pose proof (f_equal (λ m : pydict, m !! "price") Hdict) as Hp.
  pose proof (f_equal (λ m : pydict, m !! "tax") Hdict) as Ht.
  cbn beta in *. rewrite !lookup_Item_dict in *.
  repeat case_decide; try done.
  destruct item1 as [n1 [d1|] p1 [t1|]], item2 as [n2 [d2|] p2 [t2|]];
    cbn in *; by simplify_eq.
Qed.


(** ** Successful responses, read backwards *)

Section inversion_facts.
Context `{V : Validators}.

Lemma serve_items1_OK_inv body st content :
  (serve (POST_items1 body) st).1 = OK content →
  ∃ item t, validate_Item body = inr item ∧ tax item = Some t ∧
            PrimFloat.is_finite (PrimFloat.add (price item) t) && finite_fields item = true ∧
            content = {[ "price_with_tax" := VFloat (PrimFloat.add (price item) t) ]}
                      ∪ Item_dict item.
Proof.
  intros Hresp.
  destruct (validate_Item body) as [errs|item] eqn:Hvalid.
  { rewrite (serve_items1_rejected _ _ _ Hvalid) in Hresp. by apply reject_not_OK in Hresp. }
  destruct (tax item) as [t|] eqn:Htax.
  - rewrite (serve_items1_new _ _ _ _ Hvalid Htax) in Hresp.
    destruct (PrimFloat.is_finite (PrimFloat.add (price item) t) && finite_fields item)
      eqn:Hfinite; [|done].
    exists item, t. by simplify_eq/=.
  - by rewrite (serve_items1_raise _ _ _ Hvalid Htax) in Hresp.
Qed.

Lemma serve_items2_OK_inv item_id body st content :
  (serve (PUT_items2 item_id body) st).1 = OK content →
  ∃ item, validate_Item body = inr item ∧ finite_fields item = true ∧
          content = Item_dict item ∪ {[ "item_id" := VInt item_id ]}.
Proof.
  intros Hresp.
  destruct (validate_Item body) as [errs|item] eqn:Hvalid.
  { rewrite (serve_items2_rejected _ _ _ _ Hvalid) in Hresp. by apply reject_not_OK in Hresp. }
  rewrite (serve_items2_new _ _ _ _ Hvalid) in Hresp.
  destruct (finite_fields item) eqn:Hfinite; [|done].
  exists item. by simplify_eq/=.
Qed.

Lemma validate_items3_q (q : option string) : validate_query "q" items3_q q = inr q.
Proof. by destruct q. Qed.

Lemma serve_items3_OK_inv item_id body q st content :
  (serve (PUT_items3 item_id body q) st).1 = OK content →
  ∃ item, validate_Item body = inr item ∧ finite_fields item = true ∧
          content = (if truth (optional_value VStr q)
                     then {[ "q" := optional_value VStr q ]} else ∅)
                    ∪ (Item_dict item ∪ {[ "item_id" := VInt item_id ]}).
Proof.
  intros Hresp.
  destruct (validate_Item body) as [errs|item] eqn:Hvalid.
  { rewrite (serve_items3_rejected _ _ _ _ _ Hvalid) in Hresp.
    by apply reject_not_OK in Hresp. }
  rewrite (serve_items3_new _ _ _ _ _ Hvalid) in Hresp.
  destruct (finite_fields item) eqn:Hfinite; [|done].
  exists item. by simplify_eq/=.
Qed.

Lemma same_fields_union_r (extra d : pydict) :
  (∀ field, field ∈ Item_fields → extra !! field = None) →
  same_fields (extra ∪ d) d.
Proof. intros Hextra field Hfield. by apply lookup_union_r, Hextra. Qed.

Lemma same_fields_with_item_id item item_id :
  same_fields (Item_dict item ∪ {[ "item_id" := VInt item_id ]}) (Item_dict item).
Proof.
  intros field Hfield. rewrite lookup_with_item_id.
  unfold Item_fields in Hfield. rewrite !elem_of_cons, elem_of_nil in Hfield.
  destruct Hfield as [->|[->|[->|[->|[]]]]]; by case_decide.
Qed.

Lemma same_fields_trans (d1 d2 d3 : pydict) :
  same_fields d1 d2 → same_fields d2 d3 → same_fields d1 d3.
Proof. intros H12 H23 field Hfield. by rewrite H12, H23. Qed.

Lemma singleton_not_field (k : string) (v : value) :
  k ∉ Item_fields → ∀ field, field ∈ Item_fields → ({[ k := v ]} : pydict) !! field = None.
Proof.
  intros Hk field Hfield. apply lookup_singleton_None. by intros ->.
Qed.
End inversion_facts.

(** X4. The content of a successful response of a body route is itself a
    body that the route accepts, and sending it back gives the same response:
    the computed [price_with_tax], [item_id] and [q] entries are not fields
    of the Item and are built again. *)
Theorem responses_echo `{V : Validators} (item_id : Z) (body : value)
    (q : option string) (st st' : store) (content : pydict) :
  type_preserving V →
  ((serve (POST_items1 body) st).1 = OK content →
   (serve (POST_items1 (VDict content)) st').1 = OK content) ∧
  ((serve (PUT_items2 item_id body) st).1 = OK content →
   (serve (PUT_items2 item_id (VDict content)) st').1 = OK content) ∧
  ((serve (PUT_items3 item_id body q) st).1 = OK content →
   (serve (PUT_items3 item_id (VDict content) q) st').1 = OK content).
Proof.
  intros Hv. split_and!.
  - intros (item & t & _ & Htax & Hfinite & ->)%serve_items1_OK_inv.
    rewrite (serve_items1_ok _ item t); [done| |done|done].
    apply validate_Item_echo; [done|].
    apply same_fields_union_r, singleton_not_field.
    unfold Item_fields. rewrite !not_elem_of_cons. by split_and!; [..|apply not_elem_of_nil].
  - intros (item & _ & Hfinite & ->)%serve_items2_OK_inv.
    rewrite (serve_items2_ok _ _ item); [done| |done].
    apply validate_Item_echo; [done|]. apply same_fields_with_item_id.
  - intros (item & _ & Hfinite & ->)%serve_items3_OK_inv.
    rewrite (serve_items3_ok _ _ item); [done| |done].
    apply validate_Item_echo; [done|].
    eapply same_fields_trans; [|apply same_fields_with_item_id].
    apply same_fields_union_r.
    destruct (truth (optional_value VStr q)); [|by intros].
    apply singleton_not_field.
    unfold Item_fields. rewrite !not_elem_of_cons. by split_and!; [..|apply not_elem_of_nil].
Qed.

Lemma responses_echo_witness :
  (serve (V := strict_validators)
     (POST_items1 (VDict ({[ "price_with_tax" := VFloat 11.5%float ]} ∪
        Item_dict {| name := "Foo"; description := None; price := 10.0%float;
                     tax := Some 1.5%float |}))) []).1
  = OK ({[ "price_with_tax" := VFloat 11.5%float ]} ∪
        Item_dict {| name := "Foo"; description := None; price := 10.0%float;
                     tax := Some 1.5%float |}).
Proof.
  apply (responses_echo (V := strict_validators) 5
           (VDict {[ "name" := VStr "Foo"; "price" := VFloat 10.0%float;
                     "tax" := VFloat 1.5%float ]}) None [] []).
  - vm_compute. split; reflexivity.
  - vm_compute. reflexivity.
Defined.

(** ** The routes of /items2 and /items3 side by side *)

(** X8. PUT /items3/{item_id} is PUT /items2/{item_id} with the entry for q
    on top: on every body the response is that of /items2, and on success
    a present, non-empty q is added under ["q"] and nothing else changes. *)
Theorem items3_extends_items2 `{V : Validators} (item_id : Z) (body : value)
    (q : option string) (st st' : store) :
  (serve (PUT_items3 item_id body q) st).1 =
    match (serve (PUT_items2 item_id body) st').1 with
    | OK content =>
        OK match q with
           | Some s => if String.eqb s "" then content else <[ "q" := VStr s ]> content
           | None => content
           end
    | other => other
    end.
Proof.
  destruct (validate_Item body) as [errs|item] eqn:Hvalid.
  - rewrite (serve_items3_rejected _ _ _ _ _ Hvalid),
      (serve_items2_rejected _ _ _ _ Hvalid), !reject_fst.
    by destruct (validation_raises body).
  - rewrite (serve_items2_new _ _ _ _ Hvalid), (serve_items3_new _ _ _ _ _ Hvalid).
    cbn. destruct (finite_fields item); [|done].
    f_equal. destruct q as [s|]; cbn.
    + destruct (String.eqb s ""); cbn.
      * by rewrite (left_id_L (∅ : pydict) (∪)).
      * by rewrite insert_union_singleton_l.
    + by rewrite (left_id_L (∅ : pydict) (∪)).
Qed.

(** ** The list of validation errors *)

Section error_facts.
Context {A : Type} (validator : value → option A).
Implicit Types (d : pydict) (field : string).


End error_facts.


Section error_membership.
Context {A : Type} (validator : value → option A).
Implicit Types (d : pydict) (field : string).


End error_membership.





Section unprocessable_facts.
Context `{V : Validators}.




End unprocessable_facts.



(** ** The query parameter of /items4 *)

(** The declaration of q without its two length bounds. *)
Lemma validate_regex_only_unfold (s : string) :
  validate_query "q"
    {| default_value := Ellipsis; max_length := None; min_length := None;
       regex := Some "^fixedquery$" |} (Some s) =
    if negb (re_match "^fixedquery$" s)
    then inl [{| loc := ["query"; "q"]; kind := RegexMismatch |}]
    else inr (Some s).
Proof. reflexivity. Qed.

Lemma fixedquery_length (s : string) :
  re_match "^fixedquery$" s = true → 3 ≤ String.length s ≤ 50.
Proof.
  intros [-> | ->]%re_match_fixedquery; vm_compute; lia.
Qed.

(** X11. The length bounds of q on /items4 never decide anything: the
    pattern alone settles which q is accepted, and the declaration without
    [min_length] and [max_length] accepts the same queries with the same
    result. *)
Theorem items4_length_bounds_redundant `{V : Validators} (raw q : option string)
    (st : store) :
  ((∃ content, (serve (GET_items4 raw) st).1 = OK content) ↔
   ∃ s, raw = Some s ∧ re_match "^fixedquery$" s = true) ∧
  (validate_query "q" items4_q raw = inr q ↔
   validate_query "q"
     {| default_value := Ellipsis; max_length := None; min_length := None;
        regex := Some "^fixedquery$" |} raw = inr q).
Proof.
  split.
  - split.
    + intros [content (s & -> & Hs & _)%serve_items4_inv].
      exists s. split; [done|]. by apply re_match_fixedquery.
    + intros (s & -> & Hre). eexists.
      by rewrite (serve_items4_ok s st (fixedquery_length s Hre) Hre).
  - destruct raw as [s|]; [|done].
    rewrite validate_items4_q_inr, validate_regex_only_unfold.
    destruct (re_match "^fixedquery$" s) eqn:Hre; cbn.
    + split.
      * by intros (? & [= <-] & -> & _).
      * intros [= <-]. exists s. split_and!; try done; by apply fixedquery_length.
    + split; [|done]. intros (? & [= <-] & _ & _ & ?). congruence.
Qed.

(** X12. [read_items] called as a function: without q, or with the empty
    string, it returns the items alone; with any other q it returns the
    entry [q: q] beside them, and the list of the items is still there
    exactly when q is not the string ["items"], whose entry replaces it. *)
Theorem read_items_result (q : option string) (st : store) :
  ∃ d, respond (Items4.read_items q) st = (OK d, st ++ [d]) ∧
       (truth (optional_value VStr q) = false → d = {[ "items" := Items4.items ]}) ∧
       (∀ s, q = Some s → s ≠ "" →
          d !! s = Some (VStr s) ∧
          dom d = ({[ "items"; s ]} : gset string) ∧
          (d !! "items" = Some Items4.items ↔ s ≠ "items")).
Proof.
  eexists. split; [apply respond_ok; [apply Items4_read_items_ok | apply compliant_items4]|].
  split.
  - destruct q as [s|]; cbn; [intros ->|intros _]; by rewrite (left_id_L (∅ : pydict) (∪)).
  - intros s -> Hs.
    assert (truth (VStr s) = true) as -> by by apply negb_true_iff, String.eqb_neq.
    split_and!.
    + apply lookup_union_Some_l, lookup_singleton_eq.
    + rewrite dom_union_L, !dom_singleton_L. apply (comm_L (∪)).
    + rewrite lookup_union, !lookup_singleton. split.
      * intros Hitems ->. by case_decide.
      * intros Hne. by repeat case_decide.
Qed.

(** ** Null, omission and the entries of a response *)

Lemma optional_field_null {A} (validator : value → option A) (field : string) (d : pydict) :
  optional_field validator field (<[ field := VNone ]> d) = inr None ∧
  optional_field validator field (delete field d) = inr None.
Proof.
  unfold optional_field. by rewrite lookup_insert_eq, lookup_delete_eq.
Qed.

Lemma required_field_lookup {A} (validator : value → option A) (field : string)
    (d1 d2 : pydict) :
  d1 !! field = d2 !! field →
  required_field validator field d1 = required_field validator field d2.
Proof. intros Hd. unfold required_field. by rewrite Hd. Qed.

Lemma optional_field_lookup {A} (validator : value → option A) (field : string)
    (d1 d2 : pydict) :
  d1 !! field = d2 !! field →
  optional_field validator field d1 = optional_field validator field d2.
Proof. intros Hd. unfold optional_field. by rewrite Hd. Qed.

(** X13. For the optional fields, null is the same as leaving the field
    out: a body with [description] (or [tax]) set to null binds exactly as
    the body without that key, to the same Item or with the same errors. *)
Theorem null_is_omission `{V : Validators} (d : pydict) :
  validate_Item (VDict (<[ "description" := VNone ]> d)) =
    validate_Item (VDict (delete "description" d)) ∧
  validate_Item (VDict (<[ "tax" := VNone ]> d)) =
    validate_Item (VDict (delete "tax" d)).
Proof.
  split; unfold validate_Item; cbn [body_mapping]; unfold Item_init.
  - destruct (optional_field_null str_validator "description" d) as [-> ->].
    rewrite (required_field_lookup str_validator "name" _ (delete "description" d)),
      (required_field_lookup float_validator "price" _ (delete "description" d)),
      (optional_field_lookup float_validator "tax" _ (delete "description" d));
      by rewrite ?lookup_insert_ne, ?lookup_delete_ne.
  - destruct (optional_field_null float_validator "tax" d) as [-> ->].
    rewrite (required_field_lookup str_validator "name" _ (delete "tax" d)),
      (required_field_lookup float_validator "price" _ (delete "tax" d)),
      (optional_field_lookup str_validator "description" _ (delete "tax" d));
      by rewrite ?lookup_insert_ne, ?lookup_delete_ne.
Qed.

(** X14. Every successful response of POST /items1/ is consistent in
    itself: its [price] and [tax] entries are numbers, never null, and its
    [price_with_tax] entry is their sum. *)
Theorem items1_response_consistent `{V : Validators} (body : value) (st : store)
    (content : pydict) :
  (serve (POST_items1 body) st).1 = OK content →
  ∃ p t, content !! "price" = Some (VFloat p) ∧
         content !! "tax" = Some (VFloat t) ∧
         content !! "price_with_tax" = Some (VFloat (PrimFloat.add p t)).
Proof.
  intros (item & t & _ & Htax & _ & ->)%serve_items1_OK_inv.
  exists (price item), t. split_and!.
  - rewrite lookup_union_r by done. by rewrite lookup_Item_dict.
  - rewrite lookup_union_r by done. by rewrite lookup_Item_dict, Htax.
  - apply lookup_union_Some_l, lookup_singleton_eq.
Qed.

Lemma items1_response_consistent_witness :
  ∃ p t,
    ({[ "price_with_tax" := VFloat 11.5%float ]} ∪
     Item_dict {| name := "Foo"; description := None; price := 10.0%float;
                  tax := Some 1.5%float |} : pydict) !! "price" = Some (VFloat p) ∧
    ({[ "price_with_tax" := VFloat 11.5%float ]} ∪
     Item_dict {| name := "Foo"; description := None; price := 10.0%float;
                  tax := Some 1.5%float |} : pydict) !! "tax" = Some (VFloat t) ∧
    ({[ "price_with_tax" := VFloat 11.5%float ]} ∪
     Item_dict {| name := "Foo"; description := None; price := 10.0%float;
                  tax := Some 1.5%float |} : pydict) !! "price_with_tax"
      = Some (VFloat (PrimFloat.add p t)).
Proof.
  apply (items1_response_consistent (V := strict_validators)
           (VDict {[ "name" := VStr "Foo"; "price" := VFloat 10.0%float;
                     "tax" := VFloat 1.5%float ]}) []).
  vm_compute. reflexivity.
Defined.
